(** * Double-entry bookkeeping routes of the logistic management backend

    A shallow embedding of the accounting routes (routes/accounts.js) and of
    the financial reports (routes/reports.js) together with the part of the
    PostgreSQL schema they run against (tables [accounts], [transactions],
    [transaction_entries]).

    Conventions of the embedding.
    - Money is counted in hundredths: the columns are DECIMAL(15,2), so a
      stored amount is an integer number of hundredths, and the tolerance
      0.01 of the posting check is [1].  Sums made in JavaScript are taken
      exactly.
    - A nullable column is an [option]; SQL aggregates and operators follow
      the NULL rules of SQL ([SUM], [COALESCE], [sql_minus]).
    - [db.query] is a computation on the database that either returns rows
      or raises; every statement is committed on its own, so what was
      written before a raise stays written.  The routes' try/catch turns a
      raise into the 500 response.
    - A path parameter is taken as the integer it denotes. *)

From Stdlib Require Import ZArith List String Ascii Bool Lia DecimalString Permutation.
From Stdlib Require Import Sorted.
Import ListNotations.

Local Open Scope string_scope.
Local Open Scope list_scope.
Local Open Scope Z_scope.

Set Warnings "-register-all".

(** ** JSON values sent by [res.json] *)

Inductive json : Type :=
| JNull
| JBool (b : bool)
| JInt (n : Z)                       (* an integer: ids, counts *)
| JDec (hundredths : Z)              (* a decimal amount, in hundredths *)
| JStr (s : string)
| JArr (items : list json)
| JObj (fields : list (string * json)).

Fixpoint assoc (k : string) (fields : list (string * json)) : option json :=
  match fields with
  | [] => None
  | (k', v) :: rest => if String.eqb k k' then Some v else assoc k rest
  end.

(** [j.k] for an object [j]; [None] stands for JavaScript's undefined. *)
Definition get (k : string) (j : json) : option json :=
  match j with
  | JObj fields => assoc k fields
  | _ => None
  end.


Definition items_of (j : json) : list json :=
  match j with
  | JArr l => l
  | _ => []
  end.




Definition json_opt_int (o : option Z) : json :=
  match o with Some n => JInt n | None => JNull end.

Definition json_opt_dec (o : option Z) : json :=
  match o with Some n => JDec n | None => JNull end.

Definition json_opt_str (o : option string) : json :=
  match o with Some s => JStr s | None => JNull end.

Record response : Type := Response { status : Z; body : json }.

(** [res.json(b)] answers with status 200. *)
Definition res_json (b : json) : response := Response 200 b.

Definition msg (m : string) : json := JObj [("msg", JStr m)].

Definition no_token : response :=
  Response 401 (msg "No token, authorization denied").

Definition server_error : response := Response 500 (JStr "Server error").

(** [!token] for the value of [req.header('x-auth-token')]. *)
Definition has_token (token : option string) : bool :=
  match token with
  | Some s => negb (String.eqb s "")
  | None => false
  end.

(** ** Schema *)

Inductive acct_type : Type := asset | liability | equity | revenue | expense.

Definition acct_type_eqb (x y : acct_type) : bool :=
  match x, y with
  | asset, asset | liability, liability | equity, equity
  | revenue, revenue | expense, expense => true
  | _, _ => false
  end.

Definition acct_type_name (x : acct_type) : string :=
  match x with
  | asset => "asset"
  | liability => "liability"
  | equity => "equity"
  | revenue => "revenue"
  | expense => "expense"
  end.

(** Table [accounts]; the CHECK on account_type is the type [acct_type].
    The columns no query below reads (balance, currency, is_active and the
    timestamps) are left out. *)
Record account : Type := Account {
  a_id : Z;
  account_number : string;
  account_name : string;
  account_type : acct_type;
  parent_account_id : option Z
}.

(** Table [transactions]. *)
Record transaction : Type := Transaction {
  t_id : Z;
  transaction_number : string;
  reference_number : option string;
  transaction_type : option string;
  t_description : option string;
  date : option Z                    (* a day number; DATE is nullable *)
}.

(** Table [transaction_entries]. *)
Record transaction_entry : Type := Entry {
  te_id : Z;
  transaction_id : option Z;
  account_id : option Z;
  debit_amount : option Z;
  credit_amount : option Z;
  te_description : option string
}.

(** The database: the three tables in insertion order and the two SERIAL
    sequences the posting route draws from. *)
Record db : Type := Db {
  accounts : list account;
  transactions : list transaction;
  transaction_entries : list transaction_entry;
  transactions_id_seq : Z;
  transaction_entries_id_seq : Z
}.

(** The journal: what the posting route writes to. *)
Definition journal (d : db) : list transaction * list transaction_entry :=
  (transactions d, transaction_entries d).

(** ** SQL expressions *)

Definition opt_eqb (o : option Z) (n : Z) : bool :=
  match o with Some m => Z.eqb m n | None => false end.

(** SUM skips NULLs and is NULL when nothing is left. *)
Fixpoint SUM (xs : list (option Z)) : option Z :=
  match xs with
  | [] => None
  | None :: rest => SUM rest
  | Some v :: rest =>
      match SUM rest with
      | None => Some v
      | Some s => Some (v + s)
      end
  end.

Definition COALESCE (x : option Z) (d : Z) : Z :=
  match x with Some v => v | None => d end.

(** [a - b] is NULL as soon as one side is. *)
Definition sql_minus (a b : option Z) : option Z :=
  match a, b with
  | Some x, Some y => Some (x - y)
  | _, _ => None
  end.

(** A column of the right side of a LEFT JOIN: NULL on the padded row. *)
Definition col {R : Type} (f : R -> option Z) (r : option R) : option Z :=
  match r with Some x => f x | None => None end.

(** [a LEFT JOIN transaction_entries te ON a.id = te.account_id], for one
    row [a]: its entries, or one row padded with NULLs. *)
Definition left_join_entries (d : db) (id : Z) : list (option transaction_entry) :=
  match filter (fun te => opt_eqb (account_id te) id) (transaction_entries d) with
  | [] => [None]
  | es => map Some es
  end.

(** ORDER BY: a stable insertion sort for the order [le]. *)
Fixpoint insert_by {A : Type} (le : A -> A -> bool) (x : A) (l : list A) : list A :=
  match l with
  | [] => [x]
  | y :: rest => if le x y then x :: l else y :: insert_by le x rest
  end.

Fixpoint order_by {A : Type} (le : A -> A -> bool) (l : list A) : list A :=
  match l with
  | [] => []
  | x :: rest => insert_by le x (order_by le rest)
  end.

(** [rows.reduce((sum, row) => sum + parseFloat(row.f), 0)] *)
Definition reduce_sum {A : Type} (f : A -> Z) (rows : list A) : Z :=
  fold_left (fun sum row => sum + f row) rows 0.

(** ** [db.query] *)

Inductive pg_result (A : Type) : Type :=
| Rows (a : A)
| PgError (m : string).
Arguments Rows {A} a.
Arguments PgError {A} m.

Definition Pg (A : Type) : Type := db -> pg_result A * db.

Definition ret {A : Type} (a : A) : Pg A := fun d => (Rows a, d).

Definition raise {A : Type} (m : string) : Pg A := fun d => (PgError m, d).

Definition bind {A B : Type} (m : Pg A) (f : A -> Pg B) : Pg B :=
  fun d =>
    match m d with
    | (Rows a, d') => f a d'
    | (PgError e, d') => (PgError e, d')
    end.

Notation "x <- m ;; k" := (bind m (fun x => k))
  (at level 61, m at next level, right associativity).

(** A read-only query. *)
Definition select {A : Type} (q : db -> A) : Pg A := fun d => (Rows (q d), d).

(** [for (const x of l) { await f(x) }] *)
Fixpoint for_of {A : Type} (f : A -> Pg unit) (l : list A) : Pg unit :=
  match l with
  | [] => ret tt
  | x :: rest => _ <- f x ;; for_of f rest
  end.

(** [try { ... } catch (err) { res.status(500).send('Server error') }] *)
Definition try_catch (m : Pg response) : db -> response * db :=
  fun d =>
    match m d with
    | (Rows r, d') => (r, d')
    | (PgError _, d') => (server_error, d')
    end.

(** The server lexes the statement text before anything else.  A single
    quote opens a string constant that runs to the next single quote (a
    doubled quote inside a constant closes and reopens it); a text that ends
    inside a constant is refused with "unterminated quoted string".  The
    texts of these routes have no comment, no quoted identifier and no
    dollar quoting, where a single quote would not count. *)
Fixpoint quotes_closed (in_constant : bool) (text : string) : bool :=
  match text with
  | EmptyString => negb in_constant
  | String c rest =>
      if Ascii.eqb c "'"%char then quotes_closed (negb in_constant) rest
      else quotes_closed in_constant rest
  end.

(** [db.query(text, params)], given what the statement does once parsed. *)
Definition query {A : Type} (text : string) (run : Pg A) : Pg A :=
  if quotes_closed false text then run
  else raise "unterminated quoted string".

(** ** routes/accounts.js *)

Definition entries_of (accountId : Z) (d : db) : list transaction_entry :=
  filter (fun te => opt_eqb (account_id te) accountId) (transaction_entries d).

(** *** DELETE api/accounts/:id *)

Definition count_entries_sql : string :=
  "SELECT COUNT(*) as count FROM transaction_entries WHERE account_id = $1".

Definition count_entries (accountId : Z) : Pg Z :=
  query count_entries_sql
    (select (fun d => Z.of_nat (List.length (entries_of accountId d)))).

Definition delete_account_sql : string :=
  "DELETE FROM accounts WHERE id = $1".

(** Rows that reference the deleted account through a foreign key
    (transaction_entries.account_id, accounts.parent_account_id, both
    without an ON DELETE action) make the DELETE fail; a row that goes away
    in the same statement does not count. *)
Definition still_referenced (accountId : Z) (d : db) : bool :=
  existsb (fun te => opt_eqb (account_id te) accountId) (transaction_entries d)
  || existsb (fun a => opt_eqb (parent_account_id a) accountId
                       && negb (a_id a =? accountId)) (accounts d).

Definition delete_from_accounts (accountId : Z) : Pg unit :=
  query delete_account_sql (fun d =>
    if existsb (fun a => a_id a =? accountId) (accounts d)
       && still_referenced accountId d
    then (PgError "violates foreign key constraint", d)
    else (Rows tt,
          Db (filter (fun a => negb (a_id a =? accountId)) (accounts d))
             (transactions d) (transaction_entries d)
             (transactions_id_seq d) (transaction_entries_id_seq d))).

Definition cannot_delete : response :=
  Response 400 (msg "Cannot delete account with existing transactions").

Definition delete_account (token : option string) (accountId : Z)
  : db -> response * db :=
  try_catch (
    if negb (has_token token) then ret no_token
    else
      transactionCheck <- count_entries accountId ;;
      if transactionCheck >? 0 then ret cannot_delete
      else
        _ <- delete_from_accounts accountId ;;
        ret (res_json (msg "Account removed"))).

(** *** GET api/accounts/balance/:id *)

Definition balance_sql : string :=
  "SELECT
     SUM(COALESCE(credit_amount, 0)) - SUM(COALESCE(debit_amount, 0)) as balance
   FROM transaction_entries
   WHERE account_id = $1".

Definition select_balance (accountId : Z) : Pg (option Z) :=
  query balance_sql (select (fun d =>
    let es := entries_of accountId d in
    sql_minus (SUM (map (fun te => Some (COALESCE (credit_amount te) 0)) es))
              (SUM (map (fun te => Some (COALESCE (debit_amount te) 0)) es)))).

(** [x || 0] for a value that is a number, null or undefined. *)
Definition or_zero (x : option Z) : Z :=
  match x with Some v => v | None => 0 end.

Definition get_balance (token : option string) (accountId : Z)
  : db -> response * db :=
  try_catch (
    if negb (has_token token) then ret no_token
    else
      balanceResult <- select_balance accountId ;;
      let balance := or_zero balanceResult in
      ret (res_json (JObj [("account_id", JInt accountId);
                           ("balance", JDec balance)]))).

(** *** POST api/accounts/transactions *)

(** One element of [req.body.entries]; an absent or null field is [None]. *)
Record entry_input : Type := EntryInput {
  e_account_id : option Z;
  e_debit_amount : option Z;
  e_credit_amount : option Z;
  e_description : option string
}.

(** [req.body].  [b_date] is [None] when the field is absent (the default
    applies) and [Some None] when it is an explicit null. *)
Record post_body : Type := PostBody {
  b_transaction_type : option string;
  b_description : option string;
  b_date : option (option Z);
  b_entries : list entry_input;
  b_reference_number : option string
}.

(** What the route reads from its environment: [Date.now()], the value of
    [Math.floor(1000 + Math.random() * 9000)], and today's date. *)
Record clock : Type := Clock { now : Z; random4 : Z; today : Z }.

Definition decimal (n : Z) : string := NilZero.string_of_int (Z.to_int n).

(** [.not().isEmpty()] *)
Definition is_empty (v : option string) : bool :=
  match v with Some s => String.eqb s "" | None => true end.

Definition validationResult (b : post_body) : list (string * string) :=
  ((if is_empty (b_transaction_type b)
    then [("transaction_type", "Transaction type is required")] else [])
   ++ (if is_empty (b_description b)
       then [("description", "Description is required")] else [])
   ++ (if (List.length (b_entries b) <? 2)%nat
       then [("entries", "Transaction entries are required")] else []))%list.

Definition validation_failed (errors : list (string * string)) : response :=
  Response 400
    (JObj [("errors",
            JArr (map (fun e => JObj [("msg", JStr (snd e));
                                      ("path", JStr (fst e))]) errors))]).

Definition imbalance : response :=
  Response 400 (msg "Debits and credits must be equal for double entry").

Definition totalDebits (entries : list entry_input) : Z :=
  fold_left (fun sum entry => sum + or_zero (e_debit_amount entry)) entries 0.

Definition totalCredits (entries : list entry_input) : Z :=
  fold_left (fun sum entry => sum + or_zero (e_credit_amount entry)) entries 0.

Definition insert_transaction_sql : string :=
  "INSERT INTO transactions
     (transaction_number, reference_number, transaction_type, description, date)
   VALUES ($1, $2, $3, $4, $5)
   RETURNING id".

Definition transaction_types : list string := ["crv"; "cpv"; "bpv"; "brv"; "jv"].

Definition fits (n : nat) (s : option string) : bool :=
  match s with Some x => (String.length x <=? n)%nat | None => true end.

(** The constraints of table [transactions] on the inserted row: the CHECK
    on transaction_type, UNIQUE on transaction_number, the VARCHAR sizes. *)
Definition transaction_accepted (d : db) (t : transaction) : bool :=
  match transaction_type t with
  | Some ty => existsb (String.eqb ty) transaction_types
  | None => true
  end
  && negb (existsb (fun t' => String.eqb (transaction_number t') (transaction_number t))
                   (transactions d))
  && fits 100 (Some (transaction_number t))
  && fits 100 (reference_number t).

(** The id comes from the sequence, which moves on even if the row is
    refused. *)
Definition insert_transaction (number : string) (reference type description : option string)
    (day : option Z) : Pg Z :=
  query insert_transaction_sql (fun d =>
    let id := transactions_id_seq d in
    let t := Transaction id number reference type description day in
    if transaction_accepted d t
    then (Rows id,
          Db (accounts d) (transactions d ++ [t])%list (transaction_entries d)
             (id + 1) (transaction_entries_id_seq d))
    else (PgError "violates a constraint of transactions",
          Db (accounts d) (transactions d) (transaction_entries d)
             (id + 1) (transaction_entries_id_seq d))).

Definition insert_entry_sql : string :=
  "INSERT INTO transaction_entries
     (transaction_id, account_id, debit_amount, credit_amount, description)
   VALUES ($1, $2, $3, $4, $5)".

(** DECIMAL(15,2): fewer than 10^13 units. *)
Definition numeric_15_2 (hundredths : Z) : bool :=
  Z.abs hundredths <? 10 ^ 15.

(** The constraints of table [transaction_entries] on the inserted row: the
    two foreign keys (a NULL reference is accepted) and the numeric range. *)
Definition entry_accepted (d : db) (te : transaction_entry) : bool :=
  match transaction_id te with
  | Some t => existsb (fun t' => t_id t' =? t) (transactions d)
  | None => true
  end
  && match account_id te with
     | Some a => existsb (fun a' => a_id a' =? a) (accounts d)
     | None => true
     end
  && numeric_15_2 (COALESCE (debit_amount te) 0)
  && numeric_15_2 (COALESCE (credit_amount te) 0).

Definition entry_row (id transactionId : Z) (entry : entry_input) : transaction_entry :=
  Entry id (Some transactionId) (e_account_id entry)
        (Some (or_zero (e_debit_amount entry)))
        (Some (or_zero (e_credit_amount entry)))
        (e_description entry).

Definition insert_entry (transactionId : Z) (entry : entry_input) : Pg unit :=
  query insert_entry_sql (fun d =>
    let id := transaction_entries_id_seq d in
    let te := entry_row id transactionId entry in
    if entry_accepted d te
    then (Rows tt,
          Db (accounts d) (transactions d) (transaction_entries d ++ [te])%list
             (transactions_id_seq d) (id + 1))
    else (PgError "violates a constraint of transaction_entries",
          Db (accounts d) (transactions d) (transaction_entries d)
             (transactions_id_seq d) (id + 1))).

Definition transactionNumber (c : clock) : string :=
  ("TXN" ++ decimal (now c) ++ decimal (random4 c))%string.

Definition created (transactionId : Z) (number : string) : response :=
  res_json (JObj [("transaction_id", JInt transactionId);
                  ("transaction_number", JStr number);
                  ("message", JStr "Transaction created successfully")]).

(** The writes of the route: the transaction row, then one row per entry,
    each by a [db.query] of its own. *)
Definition write_journal (c : clock) (b : post_body) : Pg response :=
  let day := match b_date b with None => Some (today c) | Some x => x end in
  let number := transactionNumber c in
  transactionId <- insert_transaction number (b_reference_number b)
                     (b_transaction_type b) (b_description b) day ;;
  _ <- for_of (insert_entry transactionId) (b_entries b) ;;
  ret (created transactionId number).

Definition post_transactions (c : clock) (token : option string) (b : post_body)
  : db -> response * db :=
  fun d =>
    let errors := validationResult b in
    if negb (match errors with [] => true | _ => false end)
    then (validation_failed errors, d)
    else
      try_catch (
        if negb (has_token token) then ret no_token
        else
          let entries := b_entries b in
          if Z.abs (totalDebits entries - totalCredits entries) >? 1
          then ret imbalance
          else write_journal c b) d.

(** *** GET api/accounts/ledger/:accountId *)

Record ledger_row : Type := LedgerRow {
  l_id : Z;
  l_transaction_id : option Z;
  l_transaction_number : string;
  l_transaction_description : option string;
  l_date : option Z;
  l_debit_amount : option Z;
  l_credit_amount : option Z;
  l_entry_description : option string;
  running_balance : option Z
}.

Definition ledger_sql : string :=
  "SELECT
     te.id,
     te.transaction_id,
     t.transaction_number,
     t.description as transaction_description,
     t.date,
     te.debit_amount,
     te.credit_amount,
     te.description as entry_description,
     (SELECT SUM(COALESCE(debit_amount, 0)) - SUM(COALESCE(credit_amount, 0))
      FROM transaction_entries
      WHERE account_id = $1 AND id <= te.id) as running_balance
   FROM transaction_entries te
   JOIN transactions t ON te.transaction_id = t.id
   WHERE te.account_id = $1
   ORDER BY t.date, te.id".

(** The correlated subquery of the select list. *)
Definition running (accountId : Z) (d : db) (upto : Z) : option Z :=
  let es := filter (fun e => te_id e <=? upto) (entries_of accountId d) in
  sql_minus (SUM (map (fun e => Some (COALESCE (debit_amount e) 0)) es))
            (SUM (map (fun e => Some (COALESCE (credit_amount e) 0)) es)).

(** Ascending order of a nullable date puts NULL last. *)
Definition date_lt (x y : option Z) : bool :=
  match x, y with
  | Some a, Some b => a <? b
  | Some _, None => true
  | None, _ => false
  end.

Definition ledger_le (r1 r2 : ledger_row) : bool :=
  if date_lt (l_date r1) (l_date r2) then true
  else if date_lt (l_date r2) (l_date r1) then false
  else l_id r1 <=? l_id r2.

Definition select_ledger (accountId : Z) : Pg (list ledger_row) :=
  query ledger_sql (select (fun d =>
    order_by ledger_le
      (flat_map
         (fun te =>
            map (fun t =>
                   LedgerRow (te_id te) (transaction_id te)
                     (transaction_number t) (t_description t) (date t)
                     (debit_amount te) (credit_amount te) (te_description te)
                     (running accountId d (te_id te)))
                (filter (fun t => opt_eqb (transaction_id te) (t_id t))
                        (transactions d)))
         (entries_of accountId d)))).

Definition json_of_ledger_row (r : ledger_row) : json :=
  JObj [("id", JInt (l_id r));
        ("transaction_id", json_opt_int (l_transaction_id r));
        ("transaction_number", JStr (l_transaction_number r));
        ("transaction_description", json_opt_str (l_transaction_description r));
        ("date", json_opt_int (l_date r));
        ("debit_amount", json_opt_dec (l_debit_amount r));
        ("credit_amount", json_opt_dec (l_credit_amount r));
        ("entry_description", json_opt_str (l_entry_description r));
        ("running_balance", json_opt_dec (running_balance r))].

Definition get_ledger (token : option string) (accountId : Z)
  : db -> response * db :=
  try_catch (
    if negb (has_token token) then ret no_token
    else
      ledgerEntries <- select_ledger accountId ;;
      ret (res_json (JArr (map json_of_ledger_row ledgerEntries)))).

(** The last element of an array. *)
Fixpoint last_item {A : Type} (l : list A) : option A :=
  match l with
  | [] => None
  | [x] => Some x
  | _ :: rest => last_item rest
  end.

(** ** routes/reports.js *)

(** *** GET api/reports/trial-balance *)

Record tb_row : Type := TbRow {
  tb_id : Z;
  tb_account_number : string;
  tb_account_name : string;
  tb_account_type : acct_type;
  total_debits : Z;
  total_credits : Z;
  tb_balance : Z
}.

Definition trial_balance_sql : string :=
  "SELECT
     a.id,
     a.account_number,
     a.account_name,
     a.account_type,
     COALESCE(SUM(COALESCE(te.debit_amount, 0)), 0) as total_debits,
     COALESCE(SUM(COALESCE(te.credit_amount, 0)), 0) as total_credits,
     (COALESCE(SUM(COALESCE(te.credit_amount, 0)), 0) - COALESCE(SUM(COALESCE(te.debit_amount, 0)), 0)) as balance
   FROM accounts a
   LEFT JOIN transaction_entries te ON a.id = te.account_id
   GROUP BY a.id, a.account_number, a.account_name, a.account_type
   ORDER BY a.account_number".

(** a.id is the primary key, so a group holds the joined rows of one
    account. *)
Definition trial_balance_row (d : db) (a : account) : tb_row :=
  let rows := left_join_entries d (a_id a) in
  let debits :=
    COALESCE (SUM (map (fun r => Some (COALESCE (col debit_amount r) 0)) rows)) 0 in
  let credits :=
    COALESCE (SUM (map (fun r => Some (COALESCE (col credit_amount r) 0)) rows)) 0 in
  TbRow (a_id a) (account_number a) (account_name a) (account_type a)
        debits credits (credits - debits).

Definition select_trial_balance : Pg (list tb_row) :=
  query trial_balance_sql (select (fun d =>
    order_by (fun r1 r2 => String.leb (tb_account_number r1) (tb_account_number r2))
             (map (trial_balance_row d) (accounts d)))).

Definition json_of_tb_row (r : tb_row) : json :=
  JObj [("id", JInt (tb_id r));
        ("account_number", JStr (tb_account_number r));
        ("account_name", JStr (tb_account_name r));
        ("account_type", JStr (acct_type_name (tb_account_type r)));
        ("total_debits", JDec (total_debits r));
        ("total_credits", JDec (total_credits r));
        ("balance", JDec (tb_balance r))].

Definition trial_balance (token : option string) : db -> response * db :=
  try_catch (
    if negb (has_token token) then ret no_token
    else
      accounts <- select_trial_balance ;;
      let totalDebits := reduce_sum total_debits accounts in
      let totalCredits := reduce_sum total_credits accounts in
      let netDifference := totalCredits - totalDebits in
      ret (res_json
             (JObj [("accounts", JArr (map json_of_tb_row accounts));
                    ("totals",
                     JObj [("total_debits", JDec totalDebits);
                           ("total_credits", JDec totalCredits);
                           ("net_difference", JDec netDifference)])]))).

(** *** Rows [{account_name, amount}] of the statements *)

Record amount_row : Type := AmountRow { r_account_name : string; amount : Z }.

Definition json_of_amount_row (r : amount_row) : json :=
  JObj [("account_name", JStr (r_account_name r)); ("amount", JDec (amount r))].

(** [accounts a LEFT JOIN transaction_entries te ... LEFT JOIN transactions t
    ON te.transaction_id = t.id], for one row [a]. *)
Definition left_join_transactions (d : db) (id : Z)
  : list (option transaction_entry * option transaction) :=
  flat_map
    (fun r =>
       match r with
       | None => [(None, None)]
       | Some te =>
           match filter (fun t => opt_eqb (transaction_id te) (t_id t)) (transactions d) with
           | [] => [(Some te, None)]
           | ts => map (fun t => (Some te, Some t)) ts
           end
       end)
    (left_join_entries d id).

(** [t.date BETWEEN $1 AND $2]; a NULL date does not pass a WHERE. *)
Definition date_between (lo hi : Z) (t : option transaction) : bool :=
  match t with
  | Some t' =>
      match date t' with
      | Some day => (lo <=? day) && (day <=? hi)
      | None => false
      end
  | None => false
  end.

(** The groups of [GROUP BY a.id, a.account_name] over the accounts of one
    type: for each account, its name and the joined rows that pass [keep];
    an account with no row left has no group. *)
Definition groups (ty : acct_type)
    (keep : option transaction_entry * option transaction -> bool) (d : db)
  : list (string * list (option transaction_entry)) :=
  flat_map
    (fun a =>
       match filter keep (left_join_transactions d (a_id a)) with
       | [] => []
       | rows => [(account_name a, map fst rows)]
       end)
    (filter (fun a => acct_type_eqb (account_type a) ty) (accounts d)).

Definition sum_debit (rows : list (option transaction_entry)) : Z :=
  COALESCE (SUM (map (col debit_amount) rows)) 0.

Definition sum_credit (rows : list (option transaction_entry)) : Z :=
  COALESCE (SUM (map (col credit_amount) rows)) 0.

(** [COALESCE(SUM(te.credit_amount), 0) - COALESCE(SUM(te.debit_amount), 0)] *)
Definition credit_minus_debit (g : string * list (option transaction_entry)) : amount_row :=
  AmountRow (fst g) (sum_credit (snd g) - sum_debit (snd g)).

(** [COALESCE(SUM(te.debit_amount), 0) - COALESCE(SUM(te.credit_amount), 0)] *)
Definition debit_minus_credit (g : string * list (option transaction_entry)) : amount_row :=
  AmountRow (fst g) (sum_debit (snd g) - sum_credit (snd g)).

(** *** GET api/reports/income-statement *)

(** [start_date || end_date] *)
Definition either (start_date end_date : option Z) : bool :=
  match start_date, end_date with
  | None, None => false
  | _, _ => true
  end.

(** The two statement texts are put together at run time from three
    pieces. *)
Definition revenueQuery (start_date end_date : option Z) : string :=
  ("
      SELECT
        a.account_name,
        COALESCE(SUM(te.credit_amount), 0) - COALESCE(SUM(te.debit_amount), 0) as amount
      FROM accounts a
      LEFT JOIN transaction_entries te ON a.id = te.account_id
      LEFT JOIN transactions t ON te.transaction_id = t.id
      WHERE a.account_type = 'revenue"
   ++ (if either start_date end_date then " AND t.date BETWEEN $1 AND $2" else "")
   ++ "
      GROUP BY a.id, a.account_name
    ")%string.

Definition expenseQuery (start_date end_date : option Z) : string :=
  ("
      SELECT
        a.account_name,
        COALESCE(SUM(te.debit_amount), 0) - COALESCE(SUM(te.credit_amount), 0) as amount
      FROM accounts a
      LEFT JOIN transaction_entries te ON a.id = te.account_id
      LEFT JOIN transactions t ON te.transaction_id = t.id
      WHERE a.account_type = 'expense"
   ++ (if either start_date end_date then " AND t.date BETWEEN $1 AND $2" else "")
   ++ "
      GROUP BY a.id, a.account_name
    ")%string.

(** What a statement of this shape computes once the server has parsed it:
    over the accounts of type [ty], with the date condition when the text
    has it.  The condition names $1 and $2, and [params] has them only when
    both dates were given. *)
Definition statement_rows (ty : acct_type)
    (line : string * list (option transaction_entry) -> amount_row)
    (start_date end_date : option Z) : Pg (list amount_row) :=
  fun d =>
    if either start_date end_date then
      match start_date, end_date with
      | Some lo, Some hi =>
          (Rows (map line (groups ty (fun r => date_between lo hi (snd r)) d)), d)
      | _, _ => (PgError "bind message supplies 0 parameters", d)
      end
    else (Rows (map line (groups ty (fun _ => true) d)), d).

Definition income_statement (token : option string) (start_date end_date : option Z)
  : db -> response * db :=
  try_catch (
    if negb (has_token token) then ret no_token
    else
      revenueResult <- query (revenueQuery start_date end_date)
                         (statement_rows revenue credit_minus_debit start_date end_date) ;;
      expenseResult <- query (expenseQuery start_date end_date)
                         (statement_rows expense debit_minus_credit start_date end_date) ;;
      let totalRevenue := reduce_sum amount revenueResult in
      let totalExpenses := reduce_sum amount expenseResult in
      let netIncome := totalRevenue - totalExpenses in
      ret (res_json
             (JObj [("revenue", JArr (map json_of_amount_row revenueResult));
                    ("expenses", JArr (map json_of_amount_row expenseResult));
                    ("totals",
                     JObj [("total_revenue", JDec totalRevenue);
                           ("total_expenses", JDec totalExpenses);
                           ("net_income", JDec netIncome)])]))).

(** *** GET api/reports/balance-sheet *)

Definition assetsQuery : string :=
  "SELECT
     a.account_name,
     (COALESCE(SUM(te.debit_amount), 0) - COALESCE(SUM(te.credit_amount), 0)) as amount
   FROM accounts a
   LEFT JOIN transaction_entries te ON a.id = te.account_id
   WHERE a.account_type = 'asset'
   GROUP BY a.id, a.account_name".

Definition liabilitiesQuery : string :=
  "SELECT
     a.account_name,
     (COALESCE(SUM(te.credit_amount), 0) - COALESCE(SUM(te.debit_amount), 0)) as amount
   FROM accounts a
   LEFT JOIN transaction_entries te ON a.id = te.account_id
   WHERE a.account_type = 'liability'
   GROUP BY a.id, a.account_name".

Definition equityQuery : string :=
  "SELECT
     a.account_name,
     (COALESCE(SUM(te.credit_amount), 0) - COALESCE(SUM(te.debit_amount), 0)) as amount
   FROM accounts a
   LEFT JOIN transaction_entries te ON a.id = te.account_id
   WHERE a.account_type = 'equity'
   GROUP BY a.id, a.account_name".

(** The groups of the balance sheet statements: one per account of the
    type, holding its entries or the padded row. *)
Definition sheet_groups (ty : acct_type) (d : db)
  : list (string * list (option transaction_entry)) :=
  map (fun a => (account_name a, left_join_entries d (a_id a)))
      (filter (fun a => acct_type_eqb (account_type a) ty) (accounts d)).

Definition balance_sheet (token : option string) : db -> response * db :=
  try_catch (
    if negb (has_token token) then ret no_token
    else
      assetsResult <- query assetsQuery
        (select (fun d => map debit_minus_credit (sheet_groups asset d))) ;;
      liabilitiesResult <- query liabilitiesQuery
        (select (fun d => map credit_minus_debit (sheet_groups liability d))) ;;
      equityResult <- query equityQuery
        (select (fun d => map credit_minus_debit (sheet_groups equity d))) ;;
      let totalAssets := reduce_sum amount assetsResult in
      let totalLiabilities := reduce_sum amount liabilitiesResult in
      let totalEquity := reduce_sum amount equityResult in
      let totalLiabilitiesAndEquity := totalLiabilities + totalEquity in
      ret (res_json
             (JObj [("assets", JArr (map json_of_amount_row assetsResult));
                    ("liabilities", JArr (map json_of_amount_row liabilitiesResult));
                    ("equity", JArr (map json_of_amount_row equityResult));
                    ("totals",
                     JObj [("total_assets", JDec totalAssets);
                           ("total_liabilities", JDec totalLiabilities);
                           ("total_equity", JDec totalEquity);
                           ("total_liabilities_and_equity",
                            JDec totalLiabilitiesAndEquity)])]))).

(** ** The seeded chart of accounts and the postings of the scenarios *)

(** The rows the schema script inserts into [accounts]; SERIAL numbers them
    from 1. *)
Definition seed_accounts : list account :=
  [ Account 1 "1000" "Cash" asset None;
    Account 2 "1100" "Bank" asset None;
    Account 3 "1200" "Accounts Receivable" asset None;
    Account 4 "2000" "Accounts Payable" liability None;
    Account 5 "3000" "Owner's Equity" equity None;
    Account 6 "4000" "Sales Revenue" revenue None;
    Account 7 "5000" "Cost of Goods Sold" expense None;
    Account 8 "5100" "Shipping Expenses" expense None;
    Account 9 "5200" "Office Supplies" expense None ].

Definition seeded : db := Db seed_accounts [] [] 1 1.

Definition a_token : option string := Some "token".

Definition a_clock : clock := Clock 1700000000000 4321 19675.

(** Scenario A: 500.00 received in cash (account 1000, id 1) for a sale
    (account 4000, id 6). *)
Definition scenario_A : post_body :=
  PostBody (Some "crv") (Some "Cash sale") None
    [ EntryInput (Some 1) (Some 50000) None (Some "Cash");
      EntryInput (Some 6) None (Some 50000) (Some "Sales Revenue") ]
    None.

Definition after_A : db := snd (post_transactions a_clock a_token scenario_A seeded).





(** ** Notions used to state the properties *)

(** The sum of [f] over a list. *)
Definition sigma {A : Type} (f : A -> Z) (l : list A) : Z :=
  fold_right (fun x s => f x + s) 0 l.

(** A stored amount, NULL counting for nothing. *)
Definition debit (te : transaction_entry) : Z := COALESCE (debit_amount te) 0.
Definition credit (te : transaction_entry) : Z := COALESCE (credit_amount te) 0.

(** The accounts of one type. *)
Definition of_type (ty : acct_type) (d : db) : list account :=
  filter (fun a => acct_type_eqb (account_type a) ty) (accounts d).


(** The rows a posting writes for its entries, numbered from [id]. *)
Fixpoint posted_rows (id transactionId : Z) (entries : list entry_input)
  : list transaction_entry :=
  match entries with
  | [] => []
  | e :: rest => entry_row id transactionId e :: posted_rows (id + 1) transactionId rest
  end.

(** The row a posting writes into [transactions]. *)
Definition posted_transaction (c : clock) (b : post_body) (d : db) : transaction :=
  Transaction (transactions_id_seq d) (transactionNumber c) (b_reference_number b)
    (b_transaction_type b) (b_description b)
    (match b_date b with None => Some (today c) | Some x => x end).



(** ** The other routes of routes/reports.js *)

(** *** GET api/reports/daily-expense *)

Record expense_row : Type := ExpenseRow {
  x_date : option Z;
  x_account_name : string;
  x_description : option string;
  x_amount : option Z
}.

(** The text is put together like those of the income statement. *)
Definition dailyExpenseQuery (start_date end_date : option Z) : string :=
  ("
      SELECT
        t.date,
        a.account_name,
        te.description,
        te.debit_amount as amount
      FROM transaction_entries te
      JOIN transactions t ON te.transaction_id = t.id
      JOIN accounts a ON te.account_id = a.id
      WHERE a.account_type = 'expense"
   ++ (if either start_date end_date then " AND t.date BETWEEN $1 AND $2" else "")
   ++ "
      ORDER BY t.date DESC, a.account_name
    ")%string.

(** [te JOIN t ON te.transaction_id = t.id JOIN a ON te.account_id = a.id
    WHERE a.account_type = 'expense'], with the rows that pass [keep]. *)
Definition expense_lines (keep : transaction -> bool) (d : db) : list expense_row :=
  flat_map
    (fun te =>
       flat_map
         (fun t =>
            map (fun a => ExpenseRow (date t) (account_name a)
                            (te_description te) (debit_amount te))
                (filter (fun a => opt_eqb (account_id te) (a_id a)
                                  && acct_type_eqb (account_type a) expense)
                        (accounts d)))
         (filter (fun t => opt_eqb (transaction_id te) (t_id t) && keep t)
                 (transactions d)))
    (transaction_entries d).

(** [ORDER BY t.date DESC, a.account_name]; descending puts NULL first. *)
Definition expense_le (r1 r2 : expense_row) : bool :=
  if date_lt (x_date r2) (x_date r1) then true
  else if date_lt (x_date r1) (x_date r2) then false
  else String.leb (x_account_name r1) (x_account_name r2).

(** What the statement computes once the server has parsed it. *)
Definition daily_expense_rows (start_date end_date : option Z) : Pg (list expense_row) :=
  fun d =>
    if either start_date end_date then
      match start_date, end_date with
      | Some lo, Some hi =>
          (Rows (order_by expense_le
                   (expense_lines (fun t => date_between lo hi (Some t)) d)), d)
      | _, _ => (PgError "bind message supplies 0 parameters", d)
      end
    else (Rows (order_by expense_le (expense_lines (fun _ => true) d)), d).

Definition json_of_expense_row (r : expense_row) : json :=
  JObj [("date", json_opt_int (x_date r));
        ("account_name", JStr (x_account_name r));
        ("description", json_opt_str (x_description r));
        ("amount", json_opt_dec (x_amount r))].

Definition daily_expense (token : option string) (start_date end_date : option Z)
  : db -> response * db :=
  try_catch (
    if negb (has_token token) then ret no_token
    else
      result <- query (dailyExpenseQuery start_date end_date)
                  (daily_expense_rows start_date end_date) ;;
      ret (res_json (JArr (map json_of_expense_row result)))).

(** *** The statements of customer-ledger and shipment-summary

    Both routes collect the conditions of the filters that [req.query] has,
    numbering the placeholders as they go.  A value of [req.query] is a
    string, and an absent or empty one is skipped. *)

Record filters : Type := Filters {
  conditions : list string;
  params : list string;
  paramIndex : Z
}.

(** [if (v) { conditions.push(`<condition>$${paramIndex}`); params.push(v);
    paramIndex++; }] *)
Definition push_filter (condition : string) (v : option string) (f : filters) : filters :=
  match v with
  | Some x =>
      if String.eqb x "" then f
      else Filters (conditions f ++ [(condition ++ "$" ++ decimal (paramIndex f))%string])
                   (params f ++ [x])
                   (paramIndex f + 1)
  | None => f
  end.

Definition customer_ledger_select : string :=
  "
      SELECT
        i.id,
        i.invoice_number,
        i.issue_date,
        i.total_amount,
        i.status,
        s.tracking_number,
        u.name as customer_name
      FROM invoices i
      LEFT JOIN shipments s ON i.shipment_id = s.id
      LEFT JOIN users u ON i.customer_id = u.id
    ".

(** The text and the parameters that GET api/reports/customer-ledger hands
    to [db.query]. *)
Definition customer_ledger_statement (customer_id start_date end_date : option string)
  : string * list string :=
  let f := Filters [] [] 1 in
  let f := push_filter "i.customer_id = " customer_id f in
  let f := push_filter "i.issue_date >= " start_date f in
  let f := push_filter "i.issue_date <= " end_date f in
  let query := customer_ledger_select in
  let query :=
    if (0 <? List.length (conditions f))%nat
    then (query ++ " WHERE " ++ String.concat " AND " (conditions f))%string
    else query in
  ((query ++ " ORDER BY i.issue_date DESC")%string, params f).

Definition shipment_summary_select : string :=
  "
      COUNT(*) as total_shipments,
      COUNT(CASE WHEN status = 'delivered' THEN 1 END) as delivered,
      COUNT(CASE WHEN status = 'in_transit' THEN 1 END) as in_transit,
      COUNT(CASE WHEN status = 'pending' THEN 1 END) as pending,
      COUNT(CASE WHEN status = 'cancelled' THEN 1 END) as cancelled,
      AVG(weight) as average_weight,
      SUM(CASE WHEN payment_method = 'cod' THEN cod_amount ELSE 0 END) as total_cod_amount
    FROM shipments
    WHERE ".

(** The text and the parameters that GET api/reports/shipment-summary hands
    to [db.query]. *)
Definition shipment_summary_statement (start_date end_date status : option string)
  : string * list string :=
  let query := "SELECT " in
  let f := Filters ["1=1"] [] 1 in
  let f := push_filter "created_at >= " start_date f in
  let f := push_filter "created_at <= " end_date f in
  let f := push_filter "status = " status f in
  ((query ++ shipment_summary_select ++ String.concat " AND " (conditions f) ++ "
    ")%string, params f).

(** ** The router of routes/accounts.js

    The routes in the order in which the file registers them.  A request is
    handled by the first route of its method whose path matches; none of
    the handlers passes the request on. *)

Inductive method : Type := GET | POST | PUT | DELETE.

Inductive piece : Type :=
| Lit (s : string)                   (* a fixed segment *)
| Param (name : string).             (* [:name], any one segment *)

Inductive handler : Type :=
| list_accounts
| get_account
| create_account
| update_account
| remove_account
| account_balance
| create_transaction
| list_transactions
| account_ledger.

Definition method_eqb (x y : method) : bool :=
  match x, y with
  | GET, GET | POST, POST | PUT, PUT | DELETE, DELETE => true
  | _, _ => false
  end.

Definition routes : list (method * list piece * handler) :=
  [ (GET, [], list_accounts);
    (GET, [Param "id"], get_account);
    (POST, [], create_account);
    (PUT, [Param "id"], update_account);
    (DELETE, [Param "id"], remove_account);
    (GET, [Lit "balance"; Param "id"], account_balance);
    (POST, [Lit "transactions"], create_transaction);
    (GET, [Lit "transactions"], list_transactions);
    (GET, [Lit "ledger"; Param "accountId"], account_ledger) ].

(** Routing does not tell upper case from lower case in a fixed segment. *)
Definition lower (c : ascii) : ascii :=
  let n := nat_of_ascii c in
  if ((65 <=? n) && (n <=? 90))%nat then ascii_of_nat (n + 32) else c.

Fixpoint lowercase (s : string) : string :=
  match s with
  | EmptyString => EmptyString
  | String c rest => String (lower c) (lowercase rest)
  end.

(** The path of a request, as its segments, against the path of a route:
    [req.params] when they match. *)
Fixpoint match_path (pattern : list piece) (path : list string)
  : option (list (string * string)) :=
  match pattern, path with
  | [], [] => Some []
  | Lit s :: pattern', x :: path' =>
      if String.eqb (lowercase s) (lowercase x) then match_path pattern' path' else None
  | Param name :: pattern', x :: path' =>
      match match_path pattern' path' with
      | Some ps => Some ((name, x) :: ps)
      | None => None
      end
  | _, _ => None
  end.

Fixpoint dispatch_in (rs : list (method * list piece * handler))
    (m : method) (path : list string) : option (handler * list (string * string)) :=
  match rs with
  | [] => None
  | (m', pattern, h) :: rest =>
      if method_eqb m m' then
        match match_path pattern path with
        | Some ps => Some (h, ps)
        | None => dispatch_in rest m path
        end
      else dispatch_in rest m path
  end.

Definition dispatch (m : method) (path : list string)
  : option (handler * list (string * string)) :=
  dispatch_in routes m path.

(** Scenario C: a posting with a single entry. *)
Definition scenario_C : post_body :=
  PostBody (Some "jv") (Some "One line") None
    [ EntryInput (Some 1) (Some 50000) None None ]
    None.

(** ** Further notions used to state the properties *)

(** The ids below the sequences that hand them out. *)
Definition ids_below_seq (d : db) : Prop :=
  (forall t, In t (transactions d) -> t_id t < transactions_id_seq d)
  /\ (forall te, In te (transaction_entries d) -> te_id te < transaction_entries_id_seq d).

(** The ids of the journal are distinct and below the sequences. *)
Definition fresh_ids (d : db) : Prop :=
  ids_below_seq d
  /\ NoDup (map t_id (transactions d))
  /\ NoDup (map te_id (transaction_entries d)).

(** A computation that leaves the database as it finds it. *)
Definition reads_only {A : Type} (m : Pg A) : Prop :=
  forall d, snd (m d) = d.

(** [l1] is the beginning of [l2]. *)
Definition begins_with {A : Type} (l2 l1 : list A) : Prop :=
  exists rest, l2 = l1 ++ rest.

(** The filters that are given, with the text of their conditions. *)
Definition given (named : list (string * option string)) : list (string * string) :=
  flat_map
    (fun cv =>
       match snd cv with
       | Some x => if String.eqb x "" then [] else [(fst cv, x)]
       | None => []
       end)
    named.

(** The conditions of some filters with the placeholders numbered from [k]. *)
Fixpoint numbered (k : Z) (cs : list string) : list string :=
  match cs with
  | [] => []
  | c :: rest => (c ++ "$" ++ decimal k)%string :: numbered (k + 1) rest
  end.

(** * Properties *)

(** ** Sums *)

Section Sums.
Context {A : Type}.
Variable f : A -> Z.

Lemma fold_left_sigma (l : list A) (a : Z) :
  fold_left (fun sum row => sum + f row) l a = a + sigma f l.
Proof.
  revert a. induction l as [|x l IH]; intros a; simpl.
  - lia.
  - rewrite IH. lia.
Qed.

Lemma reduce_sum_sigma (l : list A) : reduce_sum f l = sigma f l.
Proof. unfold reduce_sum. rewrite fold_left_sigma. lia. Qed.

Lemma sigma_app (l1 l2 : list A) : sigma f (l1 ++ l2) = sigma f l1 + sigma f l2.
Proof. induction l1 as [|x l1 IH]; simpl; lia. Qed.


Lemma SUM_total (l : list A) :
  SUM (map (fun x => Some (f x)) l)
  = match l with [] => None | _ => Some (sigma f l) end.
Proof.
  induction l as [|x l IH]; simpl; [reflexivity|].
  rewrite IH. destruct l; simpl; f_equal; lia.
Qed.
End Sums.

Lemma sigma_map {A B : Type} (g : A -> B) (f : B -> Z) (l : list A) :
  sigma f (map g l) = sigma (fun x => f (g x)) l.
Proof. induction l as [|x l IH]; simpl; congruence. Qed.

Lemma sigma_ext {A : Type} (f g : A -> Z) (l : list A) :
  (forall x, f x = g x) -> sigma f l = sigma g l.
Proof. intros E. induction l as [|x l IH]; simpl; [reflexivity|]. rewrite E, IH. reflexivity. Qed.

Lemma sigma_flat_map {A B : Type} (g : A -> list B) (f : B -> Z) (l : list A) :
  sigma f (flat_map g l) = sigma (fun x => sigma f (g x)) l.
Proof. induction l as [|x l IH]; simpl; [reflexivity|]. rewrite sigma_app, IH. reflexivity. Qed.

(** COALESCE(SUM(x), 0) adds up the values that are not NULL. *)
Lemma COALESCE_SUM {A : Type} (h : A -> option Z) (l : list A) :
  COALESCE (SUM (map h l)) 0 = sigma (fun x => COALESCE (h x) 0) l.
Proof.
  induction l as [|x l IH]; simpl; [reflexivity|].
  destruct (h x) as [v|]; simpl.
  - rewrite <- IH. destruct (SUM (map h l)); simpl; lia.
  - rewrite IH. lia.
Qed.

(** ** ORDER BY rearranges *)

Lemma insert_by_perm {A : Type} (le : A -> A -> bool) (x : A) (l : list A) :
  Permutation (insert_by le x l) (x :: l).
Proof.
  induction l as [|y l IH]; simpl.
  - apply Permutation_refl.
  - destruct (le x y).
    + apply Permutation_refl.
    + eapply perm_trans; [apply perm_skip, IH | apply perm_swap].
Qed.

Lemma order_by_perm {A : Type} (le : A -> A -> bool) (l : list A) :
  Permutation (order_by le l) l.
Proof.
  induction l as [|x l IH]; simpl.
  - apply perm_nil.
  - eapply perm_trans; [apply insert_by_perm | apply perm_skip, IH].
Qed.

(** ** Statements with a constant text are parsed *)

Lemma query_closed {A : Type} (text : string) (run : Pg A) :
  quotes_closed false text = true -> query text run = run.
Proof. intros E. unfold query. rewrite E. reflexivity. Qed.

(** ** The entries of an account *)

Lemma entries_of_none (id : Z) (d : db) :
  (forall te, In te (transaction_entries d) -> account_id te <> Some id) ->
  entries_of id d = [].
Proof.
  unfold entries_of. induction (transaction_entries d) as [|te l IH]; intros H; simpl.
  - reflexivity.
  - destruct (opt_eqb (account_id te) id) eqn:E.
    + exfalso. apply (H te (or_introl eq_refl)).
      unfold opt_eqb in E. destruct (account_id te); [|discriminate].
      apply Z.eqb_eq in E. congruence.
    + apply IH. intros te' I. apply H. right. exact I.
Qed.



(** ** The balance route *)

Lemma select_balance_run (id : Z) (d : db) :
  select_balance id d
  = (Rows (match entries_of id d with
           | [] => None
           | es => Some (sigma credit es - sigma debit es)
           end), d).
Proof.
  unfold select_balance. rewrite query_closed by reflexivity.
  unfold select. f_equal. f_equal.
  rewrite (SUM_total credit), (SUM_total debit).
  destruct (entries_of id d); reflexivity.
Qed.

(** Whatever the type of the account, the route answers with the credits
    minus the debits of its entries. *)
Lemma get_balance_formula (token : option string) (id : Z) (d : db) :
  has_token token = true ->
  get_balance token id d
  = (res_json (JObj [("account_id", JInt id);
                     ("balance", JDec (sigma credit (entries_of id d)
                                       - sigma debit (entries_of id d)))]), d).
Proof.
  intros T. unfold get_balance, try_catch, bind. rewrite T. cbn [negb].
  rewrite select_balance_run. unfold ret.
  destruct (entries_of id d); reflexivity.
Qed.

(** ** The ledger route *)

Lemma filter_all {A : Type} (f : A -> bool) (l : list A) :
  (forall x, In x l -> f x = true) -> filter f l = l.
Proof.
  induction l as [|x l IH]; intros H; simpl; [reflexivity|].
  rewrite (H x (or_introl eq_refl)). f_equal.
  apply IH. intros y I. apply H. right. exact I.
Qed.

(** Over all the entries of an account the running balance of the ledger is
    the debits minus the credits. *)
Lemma running_total (id : Z) (d : db) (upto : Z) :
  entries_of id d <> [] ->
  (forall te, In te (entries_of id d) -> te_id te <= upto) ->
  running id d upto
  = Some (sigma debit (entries_of id d) - sigma credit (entries_of id d)).
Proof.
  intros N B. unfold running.
  assert (E : filter (fun e => te_id e <=? upto) (entries_of id d) = entries_of id d).
  { apply filter_all. intros te I. apply Z.leb_le, B, I. }
  rewrite E, (SUM_total debit), (SUM_total credit).
  destruct (entries_of id d); [contradiction|reflexivity].
Qed.

(** ** The posting route *)

Lemma insert_entry_run (tid : Z) (e : entry_input) (d : db) :
  insert_entry tid e d
  = let id := transaction_entries_id_seq d in
    let te := entry_row id tid e in
    if entry_accepted d te
    then (Rows tt,
          Db (accounts d) (transactions d) (transaction_entries d ++ [te])
             (transactions_id_seq d) (id + 1))
    else (PgError "violates a constraint of transaction_entries",
          Db (accounts d) (transactions d) (transaction_entries d)
             (transactions_id_seq d) (id + 1)).
Proof. unfold insert_entry. rewrite query_closed by reflexivity. reflexivity. Qed.

Lemma insert_transaction_run (number : string) (reference type description : option string)
    (day : option Z) (d : db) :
  insert_transaction number reference type description day d
  = let id := transactions_id_seq d in
    let t := Transaction id number reference type description day in
    if transaction_accepted d t
    then (Rows id,
          Db (accounts d) (transactions d ++ [t]) (transaction_entries d)
             (id + 1) (transaction_entries_id_seq d))
    else (PgError "violates a constraint of transactions",
          Db (accounts d) (transactions d) (transaction_entries d)
             (id + 1) (transaction_entries_id_seq d)).
Proof. unfold insert_transaction. rewrite query_closed by reflexivity. reflexivity. Qed.

(** The loop over the entries writes a prefix of their rows: all of them
    when it ends, fewer when an insert raises. *)
Lemma for_of_insert_entry (tid : Z) (es : list entry_input) :
  forall d,
  exists k,
    (k <= List.length es)%nat
    /\ accounts (snd (for_of (insert_entry tid) es d)) = accounts d
    /\ transactions (snd (for_of (insert_entry tid) es d)) = transactions d
    /\ transaction_entries (snd (for_of (insert_entry tid) es d))
       = transaction_entries d
         ++ firstn k (posted_rows (transaction_entries_id_seq d) tid es)
    /\ match fst (for_of (insert_entry tid) es d) with
       | Rows _ => k = List.length es
       | PgError _ => (k < List.length es)%nat
       end.
Proof.
  induction es as [|e es IH]; intros d.
  - exists 0%nat. simpl. rewrite app_nil_r. repeat split; reflexivity.
  - simpl for_of. unfold bind. rewrite insert_entry_run. cbv zeta.
    destruct (entry_accepted d _) eqn:Acc.
    + match goal with |- context [for_of _ es ?d1] => destruct (IH d1) as (k & Hk & Ha & Ht & He & Hr) end.
      exists (S k). simpl in *.
      rewrite Ha, Ht, He, <- app_assoc. simpl.
      repeat split; try reflexivity; try lia.
      destruct (fst (for_of (insert_entry tid) es _)); lia.
    + exists 0%nat. simpl. rewrite app_nil_r. repeat split; try reflexivity; lia.
Qed.



Lemma posted_rows_length (id tid : Z) (es : list entry_input) :
  List.length (posted_rows id tid es) = List.length es.
Proof. revert id. induction es as [|e es IH]; intros id; simpl; [reflexivity|]. rewrite IH. reflexivity. Qed.

(** The three ways the writes can end. *)
Lemma write_journal_outcome (c : clock) (b : post_body) (d : db) :
  let r := fst (try_catch (write_journal c b) d) in
  let d' := snd (try_catch (write_journal c b) d) in
  let t := posted_transaction c b d in
  let rows := posted_rows (transaction_entries_id_seq d) (transactions_id_seq d)
                          (b_entries b) in
  (r = created (transactions_id_seq d) (transactionNumber c)
   /\ journal d' = (transactions d ++ [t], transaction_entries d ++ rows))
  \/ (r = server_error /\ journal d' = journal d)
  \/ (r = server_error
      /\ exists k, (k < List.length (b_entries b))%nat
           /\ journal d' = (transactions d ++ [t], transaction_entries d ++ firstn k rows)).
Proof.
  cbv zeta. unfold write_journal, try_catch, bind.
  rewrite insert_transaction_run. cbv zeta.
  fold (posted_transaction c b d).
  destruct (transaction_accepted d (posted_transaction c b d)).
  - match goal with |- context [for_of ?f ?es ?d1] =>
      destruct (for_of_insert_entry (transactions_id_seq d) es d1)
        as (k & Hk & Ha & Ht & He & Hr);
      destruct (for_of f es d1) as [[u|m] d2]
    end; simpl in *.
    + left. split; [reflexivity|]. unfold journal. rewrite Ht, He. subst k.
      rewrite <- (posted_rows_length (transaction_entries_id_seq d) (transactions_id_seq d)).
      rewrite firstn_all. reflexivity.
    + right. right. split; [reflexivity|]. exists k. split; [exact Hr|].
      unfold journal. rewrite Ht, He. reflexivity.
  - right. left. split; reflexivity.
Qed.

Lemma post_transactions_run (c : clock) (token : option string) (b : post_body) (d : db) :
  post_transactions c token b d
  = match validationResult b with
    | [] =>
        if has_token token then
          if Z.abs (totalDebits (b_entries b) - totalCredits (b_entries b)) >? 1
          then (imbalance, d)
          else try_catch (write_journal c b) d
        else (no_token, d)
    | errors => (validation_failed errors, d)
    end.
Proof.
  unfold post_transactions. destruct (validationResult b); [|reflexivity].
  cbn [negb]. unfold try_catch at 1.
  destruct (has_token token); cbn [negb]; [|reflexivity].
  destruct (_ >? 1); reflexivity.
Qed.

(** ** Claims *)

(** C1 (the code departs from it).  After the posting of Scenario A the
    asset account 1000 (Cash, id 1) has debits of 500.00 and no credits, so
    its balance by the convention of asset accounts is +500.00; the balance
    route answers -500.00, the credits minus the debits, while for the
    revenue account 4000 (id 6) it answers +500.00. *)
Theorem balance_route_ignores_the_account_type :
  map account_type (filter (fun a => a_id a =? 1) (accounts after_A)) = [asset]
  /\ sigma debit (entries_of 1 after_A) - sigma credit (entries_of 1 after_A) = 50000
  /\ get_balance a_token 1 after_A
     = (res_json (JObj [("account_id", JInt 1); ("balance", JDec (-50000))]), after_A)
  /\ get_balance a_token 6 after_A
     = (res_json (JObj [("account_id", JInt 6); ("balance", JDec 50000)]), after_A).
Proof. vm_compute. repeat split; reflexivity. Qed.

(** C2 (the code departs from it).  After the posting of Scenario A the
    ledger of account 1000 (id 1) has one row, whose running balance is
    +500.00, and the balance route answers -500.00 for the same account. *)
Theorem last_running_balance_is_not_the_balance :
  option_map (get "running_balance")
    (last_item (items_of (body (fst (get_ledger a_token 1 after_A)))))
  = Some (Some (JDec 50000))
  /\ get "balance" (body (fst (get_balance a_token 1 after_A))) = Some (JDec (-50000)).
Proof. vm_compute. split; reflexivity. Qed.









(** ** The reports *)

Lemma trial_balance_row_debits (d : db) (a : account) :
  total_debits (trial_balance_row d a) = sigma debit (entries_of (a_id a) d).
Proof.
  unfold trial_balance_row. cbn [total_debits].
  unfold left_join_entries. fold (entries_of (a_id a) d).
  destruct (entries_of (a_id a) d) as [|te es]; [reflexivity|].
  rewrite map_map. exact (f_equal (fun x => COALESCE x 0) (SUM_total debit (te :: es))).
Qed.

Lemma trial_balance_row_credits (d : db) (a : account) :
  total_credits (trial_balance_row d a) = sigma credit (entries_of (a_id a) d).
Proof.
  unfold trial_balance_row. cbn [total_credits].
  unfold left_join_entries. fold (entries_of (a_id a) d).
  destruct (entries_of (a_id a) d) as [|te es]; [reflexivity|].
  rewrite map_map. exact (f_equal (fun x => COALESCE x 0) (SUM_total credit (te :: es))).
Qed.










(** What the statements of the income statement add up to once parsed, for
    a range given by both dates: over the accounts of the type, the amounts
    of the joined rows whose transaction date falls in the range. *)
Lemma statement_rows_in_range (ty : acct_type)
    (line : string * list (option transaction_entry) -> amount_row)
    (weight : option transaction_entry -> Z) (lo hi : Z) (d : db) :
  (forall g, amount (line g) = sigma weight (snd g)) ->
  exists rows,
    statement_rows ty line (Some lo) (Some hi) d = (Rows rows, d)
    /\ reduce_sum amount rows
       = sigma (fun a =>
                  sigma (fun r => weight (fst r))
                        (filter (fun r => date_between lo hi (snd r))
                                (left_join_transactions d (a_id a))))
               (of_type ty d).
Proof.
  intros W. eexists. split; [reflexivity|].
  rewrite reduce_sum_sigma, sigma_map. unfold groups. fold (of_type ty d).
  rewrite sigma_flat_map. apply sigma_ext. intros a.
  destruct (filter _ (left_join_transactions d (a_id a))) as [|r rs]; [reflexivity|].
  cbn [sigma fold_right]. rewrite W. cbn [snd]. rewrite sigma_map.
  unfold sigma. simpl. lia.
Qed.

Lemma credit_minus_debit_amount (g : string * list (option transaction_entry)) :
  amount (credit_minus_debit g)
  = sigma (fun r => COALESCE (col credit_amount r) 0 - COALESCE (col debit_amount r) 0)
          (snd g).
Proof.
  unfold credit_minus_debit, sum_credit, sum_debit. cbn [amount].
  rewrite !COALESCE_SUM. induction (snd g) as [|r rs IH]; simpl in *; lia.
Qed.

Lemma debit_minus_credit_amount (g : string * list (option transaction_entry)) :
  amount (debit_minus_credit g)
  = sigma (fun r => COALESCE (col debit_amount r) 0 - COALESCE (col credit_amount r) 0)
          (snd g).
Proof.
  unfold debit_minus_credit, sum_credit, sum_debit. cbn [amount].
  rewrite !COALESCE_SUM. induction (snd g) as [|r rs IH]; simpl in *; lia.
Qed.

(** The text of the revenue statement ends inside the string constant
    that its WHERE clause opens, with or without the date condition. *)
Lemma revenueQuery_unterminated (start_date end_date : option Z) :
  quotes_closed false (revenueQuery start_date end_date) = false.
Proof. unfold revenueQuery. destruct (either start_date end_date); reflexivity. Qed.

Lemma expenseQuery_unterminated (start_date end_date : option Z) :
  quotes_closed false (expenseQuery start_date end_date) = false.
Proof. unfold expenseQuery. destruct (either start_date end_date); reflexivity. Qed.

(** C8 (the code departs from it).  For every date range, given or not,
    and every state of the database the income statement route is answered
    with the 500 response: the first statement it sends is refused by the
    server, so no total and no net income is returned. *)
Theorem income_statement_is_never_returned
    (start_date end_date : option Z) (d : db) :
  income_statement a_token start_date end_date d = (server_error, d).
Proof.
  unfold income_statement, try_catch, bind. cbn [has_token a_token negb String.eqb].
  unfold query at 1. rewrite revenueQuery_unterminated. reflexivity.
Qed.

(** ** Deleting an account *)





(** ** The balance of an account without entries *)

(** C10.  For an account that no entry references, the aggregate of the
    balance statement is NULL and the route answers with the balance 0. *)
Theorem balance_without_entries_is_zero (token : option string) (id : Z) (d : db) :
  has_token token = true ->
  (forall te, In te (transaction_entries d) -> account_id te <> Some id) ->
  select_balance id d = (Rows None, d)
  /\ get_balance token id d
     = (res_json (JObj [("account_id", JInt id); ("balance", JDec 0)]), d).
Proof.
  intros T N. apply entries_of_none in N. split.
  - rewrite select_balance_run, N. reflexivity.
  - rewrite (get_balance_formula token id d T), N. reflexivity.
Qed.

Lemma balance_without_entries_is_zero_witness :
  has_token a_token = true
  /\ (forall te, In te (transaction_entries after_A) -> account_id te <> Some 2)
  /\ existsb (fun a => a_id a =? 2) (accounts after_A) = true
  /\ get_balance a_token 2 after_A
     = (res_json (JObj [("account_id", JInt 2); ("balance", JDec 0)]), after_A).
Proof.
  assert (N : forall te, In te (transaction_entries after_A) -> account_id te <> Some 2).
  { intros te [E|[E|[]]]; subst te; discriminate. }
  split; [reflexivity|]. split; [exact N|]. split; [reflexivity|].
  apply (balance_without_entries_is_zero a_token 2 after_A); [reflexivity|exact N].
Defined.

(** ** Further properties of the routes *)

(** X1.  Without a token every route of the two files that reaches its
    token check answers 401 and leaves the database as it was: the routes
    on accounts and the reports in any case, the posting route once the
    fields of the request are valid. *)
Theorem no_token_no_access (token : option string) (d : db) :
  has_token token = false ->
  (forall id, delete_account token id d = (no_token, d))
  /\ (forall id, get_balance token id d = (no_token, d))
  /\ (forall id, get_ledger token id d = (no_token, d))
  /\ trial_balance token d = (no_token, d)
  /\ (forall s e, income_statement token s e d = (no_token, d))
  /\ balance_sheet token d = (no_token, d)
  /\ (forall s e, daily_expense token s e d = (no_token, d))
  /\ (forall c b, validationResult b = [] ->
        post_transactions c token b d = (no_token, d)).
Proof.
  intros T. repeat split; intros;
    try (unfold delete_account, get_balance, get_ledger, trial_balance,
           income_statement, balance_sheet, daily_expense, try_catch;
         rewrite T; reflexivity).
  rewrite post_transactions_run. rewrite H, T. reflexivity.
Qed.

Lemma no_token_no_access_witness :
  has_token (Some "") = false
  /\ get_balance (Some "") 1 after_A = (no_token, after_A)
  /\ post_transactions a_clock None scenario_A seeded = (no_token, seeded).
Proof.
  split; [reflexivity|]. split.
  - apply (no_token_no_access (Some "") after_A). reflexivity.
  - apply (no_token_no_access None seeded); reflexivity.
Defined.


(** X2.  The fields of a posting are checked before the token.  A request
    with fewer than two entries is answered 400 with the error
    "Transaction entries are required" for the field entries, with or
    without a token, and the database is left as it was. *)
Theorem too_few_entries_are_refused
    (c : clock) (token : option string) (b : post_body) (d : db) :
  (List.length (b_entries b) < 2)%nat ->
  post_transactions c token b d = (validation_failed (validationResult b), d)
  /\ status (fst (post_transactions c token b d)) = 400
  /\ In ("entries", "Transaction entries are required") (validationResult b).
Proof.
  intros L.
  assert (I : In ("entries", "Transaction entries are required") (validationResult b)).
  { unfold validationResult. apply in_or_app. right. apply in_or_app. right.
    destruct (Nat.ltb_spec (List.length (b_entries b)) 2); [left; reflexivity|lia]. }
  rewrite post_transactions_run.
  destruct (validationResult b) as [|e es]; [destruct I|].
  repeat split; try reflexivity. exact I.
Qed.

Lemma too_few_entries_are_refused_witness :
  (List.length (b_entries scenario_C) < 2)%nat
  /\ status (fst (post_transactions a_clock None scenario_C seeded)) = 400.
Proof.
  split; [simpl; lia|].
  apply (too_few_entries_are_refused a_clock None scenario_C seeded).
  simpl. lia.
Defined.






Lemma write_journal_accounts (c : clock) (b : post_body) (d : db) :
  accounts (snd (try_catch (write_journal c b) d)) = accounts d.
Proof.
  unfold write_journal, try_catch, bind.
  rewrite insert_transaction_run. cbv zeta.
  destruct (transaction_accepted d _); [|reflexivity].
  match goal with |- context [for_of ?f ?es ?d1] =>
    destruct (for_of_insert_entry (transactions_id_seq d) es d1)
      as (k & _ & Ha & _);
    destruct (for_of f es d1) as [[u|m] d2]
  end; exact Ha.
Qed.

(** X4.  Whatever the request and however it ends, the posting route
    leaves the accounts as they were and only adds to the journal: the
    transactions and the entries that were there before are still there,
    unchanged and in the same place, at the beginning of the tables. *)
Theorem posting_only_appends
    (c : clock) (token : option string) (b : post_body) (d : db) :
  accounts (snd (post_transactions c token b d)) = accounts d
  /\ begins_with (transactions (snd (post_transactions c token b d))) (transactions d)
  /\ begins_with (transaction_entries (snd (post_transactions c token b d)))
                 (transaction_entries d).
Proof.
  assert (Same : forall A (l : list A), begins_with l l)
    by (intros A l; exists []; symmetry; apply app_nil_r).
  rewrite post_transactions_run.
  destruct (validationResult b); [|repeat split; apply Same].
  destruct (has_token token); [|repeat split; apply Same].
  destruct (_ >? 1); [repeat split; apply Same|].
  split; [apply write_journal_accounts|].
  destruct (write_journal_outcome c b d) as [[_ J]|[[_ J]|[_ (k & _ & J)]]];
    unfold journal in J; injection J as Jt Je; rewrite Jt, Je;
    split; try apply Same; eexists; reflexivity.
Qed.

(** ** Routes that only read *)

Lemma reads_only_ret {A : Type} (a : A) : reads_only (ret a).
Proof. intros d. reflexivity. Qed.

Lemma reads_only_select {A : Type} (q : db -> A) : reads_only (select q).
Proof. intros d. reflexivity. Qed.

Lemma reads_only_query {A : Type} (text : string) (run : Pg A) :
  reads_only run -> reads_only (query text run).
Proof. intros R d. unfold query. destruct (quotes_closed false text); [apply R|reflexivity]. Qed.

Lemma reads_only_bind {A B : Type} (m : Pg A) (f : A -> Pg B) :
  reads_only m -> (forall a, reads_only (f a)) -> reads_only (bind m f).
Proof.
  intros M F d. unfold bind. specialize (M d).
  destruct (m d) as [[a|e] d']; simpl in M; subst d'; [apply F|reflexivity].
Qed.

Lemma reads_only_if {A : Type} (c : bool) (m1 m2 : Pg A) :
  reads_only m1 -> reads_only m2 -> reads_only (if c then m1 else m2).
Proof. destruct c; auto. Qed.

Lemma try_catch_reads_only (m : Pg response) (d : db) :
  reads_only m -> snd (try_catch m d) = d.
Proof.
  intros M. unfold try_catch. specialize (M d).
  destruct (m d) as [[r|e] d']; exact M.
Qed.

Lemma reads_only_statement_rows (ty : acct_type)
    (line : string * list (option transaction_entry) -> amount_row)
    (start_date end_date : option Z) :
  reads_only (statement_rows ty line start_date end_date).
Proof.
  intros d. unfold statement_rows.
  destruct (either start_date end_date); [|reflexivity].
  destruct start_date, end_date; reflexivity.
Qed.

Lemma reads_only_daily_expense_rows (start_date end_date : option Z) :
  reads_only (daily_expense_rows start_date end_date).
Proof.
  intros d. unfold daily_expense_rows.
  destruct (either start_date end_date); [|reflexivity].
  destruct start_date, end_date; reflexivity.
Qed.

Lemma reads_only_raise {A : Type} (m : string) : reads_only (@raise A m).
Proof. intros d. reflexivity. Qed.

Create HintDb reads.
#[local] Hint Resolve reads_only_ret reads_only_select reads_only_query
  reads_only_raise reads_only_statement_rows reads_only_daily_expense_rows : reads.

Ltac reads :=
  apply try_catch_reads_only;
  repeat first
    [ solve [auto with reads]
    | apply reads_only_bind; [|intros ?]
    | apply reads_only_if ].

(** X5.  The balance, the ledger and the four reports on the journal read
    and never write: whatever the request and whatever they answer, also
    when a statement is refused, the database is left as it was. *)
Theorem reading_routes_write_nothing (token : option string) (d : db) :
  (forall id, snd (get_balance token id d) = d)
  /\ (forall id, snd (get_ledger token id d) = d)
  /\ snd (trial_balance token d) = d
  /\ (forall s e, snd (income_statement token s e d) = d)
  /\ snd (balance_sheet token d) = d
  /\ (forall s e, snd (daily_expense token s e d) = d).
Proof.
  repeat split; intros;
    unfold get_balance, select_balance, get_ledger, select_ledger, trial_balance,
      select_trial_balance, income_statement, balance_sheet, daily_expense;
    reads.
Qed.

(** X6.  Whatever the request and however it ends, deleting an account
    leaves the journal and the sequences as they were, adds no account and
    removes no account other than the one named. *)
Theorem delete_account_touches_one_account (token : option string) (id : Z) (d : db) :
  journal (snd (delete_account token id d)) = journal d
  /\ transactions_id_seq (snd (delete_account token id d)) = transactions_id_seq d
  /\ transaction_entries_id_seq (snd (delete_account token id d))
     = transaction_entries_id_seq d
  /\ (forall a, In a (accounts (snd (delete_account token id d))) -> In a (accounts d))
  /\ (forall a, In a (accounts d) -> a_id a <> id ->
        In a (accounts (snd (delete_account token id d)))).
Proof.
  unfold delete_account, try_catch, bind.
  destruct (has_token token); cbn [negb]; [|repeat split; auto].
  unfold count_entries. rewrite query_closed by reflexivity. unfold select.
  destruct (_ >? 0); [repeat split; auto|].
  unfold delete_from_accounts. rewrite query_closed by reflexivity.
  destruct (existsb _ (accounts d) && still_referenced id d); [repeat split; auto|].
  cbn [snd ret fst accounts transactions transaction_entries journal
       transactions_id_seq transaction_entries_id_seq].
  repeat split.
  - intros a I. apply filter_In in I. apply I.
  - intros a I N. apply filter_In. split; [exact I|].
    apply negb_true_iff, Z.eqb_neq, N.
Qed.

Lemma select_ledger_rows (id : Z) (d : db) (r : ledger_row) (rows : list ledger_row) :
  fst (select_ledger id d) = Rows rows ->
  In r rows ->
  exists te, In te (entries_of id d)
             /\ l_id r = te_id te
             /\ running_balance r = running id d (te_id te).
Proof.
  unfold select_ledger. rewrite query_closed by reflexivity.
  unfold select. cbn [fst]. intros E I. injection E as E. subst rows.
  apply (Permutation_in _ (order_by_perm _ _)) in I.
  apply in_flat_map in I. destruct I as (te & Ite & I).
  apply in_map_iff in I. destruct I as (t & Er & _).
  exists te. subst r. repeat split. exact Ite.
Qed.

(** X7.  For every account, a row of its ledger whose entry has the highest
    id of the account carries as running balance the opposite of what the
    balance route answers for the account: the ledger counts debits minus
    credits, the balance route credits minus debits. *)
Theorem full_running_balance_is_minus_the_balance
    (token : option string) (id : Z) (d : db) (rows : list ledger_row) (r : ledger_row) :
  has_token token = true ->
  fst (select_ledger id d) = Rows rows ->
  In r rows ->
  (forall te, In te (entries_of id d) -> te_id te <= l_id r) ->
  fst (get_ledger token id d) = res_json (JArr (map json_of_ledger_row rows))
  /\ exists b,
       running_balance r = Some b
       /\ fst (get_balance token id d)
          = res_json (JObj [("account_id", JInt id); ("balance", JDec (- b))]).
Proof.
  intros T E I H. split.
  - unfold get_ledger, try_catch, bind. rewrite T. cbn [negb].
    destruct (select_ledger id d) as [[rs|m] d']; simpl in E; [|discriminate].
    injection E as E. subst rs. reflexivity.
  - destruct (select_ledger_rows id d r rows E I) as (te & Ite & Eid & Er).
    exists (sigma debit (entries_of id d) - sigma credit (entries_of id d)). split.
    + rewrite Er, <- Eid. apply running_total; [|exact H].
      intros N. rewrite N in Ite. destruct Ite.
    + rewrite (get_balance_formula token id d T). cbn [fst].
      replace (- (sigma debit (entries_of id d) - sigma credit (entries_of id d)))
        with (sigma credit (entries_of id d) - sigma debit (entries_of id d)) by lia.
      reflexivity.
Qed.

Lemma full_running_balance_is_minus_the_balance_witness :
  has_token a_token = true
  /\ fst (select_ledger 6 after_A)
     = Rows [LedgerRow 2 (Some 1) "TXN17000000000004321" (Some "Cash sale")
               (Some 19675) (Some 0) (Some 50000) (Some "Sales Revenue")
               (Some (-50000))]
  /\ (forall te, In te (entries_of 6 after_A) -> te_id te <= 2)
  /\ fst (get_balance a_token 6 after_A)
     = res_json (JObj [("account_id", JInt 6); ("balance", JDec 50000)]).
Proof.
  assert (H : forall te, In te (entries_of 6 after_A) -> te_id te <= 2).
  { intros te [Ete|[]]. subst te. simpl. lia. }
  split; [reflexivity|]. split; [reflexivity|]. split; [exact H|].
  destruct (full_running_balance_is_minus_the_balance a_token 6 after_A _ _
              eq_refl eq_refl (or_introl eq_refl) H) as (_ & b & Eb & Ebal).
  injection Eb as Eb. subst b. exact Ebal.
Defined.

(** ** ORDER BY sorts *)

Section Sorting.
Context {A : Type}.
Variable le : A -> A -> bool.
Hypothesis le_total : forall x y, le x y = true \/ le y x = true.

Let ordered (x y : A) : Prop := le x y = true.

Lemma insert_by_hd (a x : A) (l : list A) :
  ordered a x -> HdRel ordered a l -> HdRel ordered a (insert_by le x l).
Proof.
  intros Hax H. destruct l as [|y l]; simpl.
  - constructor. exact Hax.
  - destruct (le x y); constructor; [exact Hax|].
    inversion H; assumption.
Qed.

Lemma insert_by_sorted (x : A) (l : list A) :
  Sorted ordered l -> Sorted ordered (insert_by le x l).
Proof.
  induction 1 as [|y l S IH H]; simpl.
  - repeat constructor.
  - destruct (le x y) eqn:E.
    + constructor; [constructor; assumption|constructor; exact E].
    + constructor; [exact IH|].
      apply insert_by_hd; [|exact H].
      destruct (le_total x y) as [L|L]; [congruence|exact L].
Qed.

Lemma order_by_sorted (l : list A) : Sorted ordered (order_by le l).
Proof.
  induction l as [|x l IH]; simpl; [constructor|].
  apply insert_by_sorted, IH.
Qed.
End Sorting.




(** What the trial balance answers to a request with a token. *)
Lemma trial_balance_run (token : option string) (d : db) :
  has_token token = true ->
  exists rows,
    fst (select_trial_balance d) = Rows rows
    /\ trial_balance token d
       = (res_json
            (JObj [("accounts", JArr (map json_of_tb_row rows));
                   ("totals",
                    JObj [("total_debits", JDec (sigma total_debits rows));
                          ("total_credits", JDec (sigma total_credits rows));
                          ("net_difference",
                           JDec (sigma total_credits rows - sigma total_debits rows))])]),
          d).
Proof.
  intros T. unfold trial_balance, try_catch, bind. rewrite T. cbn [negb].
  unfold select_trial_balance. rewrite query_closed by reflexivity.
  unfold select, ret. eexists. split; [reflexivity|].
  rewrite !reduce_sum_sigma. reflexivity.
Qed.



(** ** Posting and the trial balance *)










(** ** The lines of the balance sheet *)



(** ** The daily expense report *)

Lemma dailyExpenseQuery_unterminated (start_date end_date : option Z) :
  quotes_closed false (dailyExpenseQuery start_date end_date) = false.
Proof. unfold dailyExpenseQuery. destruct (either start_date end_date); reflexivity. Qed.

(** X11.  The daily expense report is answered with the 500 response for
    every range of dates, given or not, and every state of the database:
    the text of its statement ends inside the string constant that its
    WHERE clause opens, and the server refuses it. *)
Theorem daily_expense_is_never_returned
    (token : option string) (start_date end_date : option Z) (d : db) :
  has_token token = true ->
  quotes_closed false (dailyExpenseQuery start_date end_date) = false
  /\ daily_expense token start_date end_date d = (server_error, d).
Proof.
  intros T. split; [apply dailyExpenseQuery_unterminated|].
  unfold daily_expense, try_catch, bind. rewrite T. cbn [negb].
  unfold query. rewrite dailyExpenseQuery_unterminated. reflexivity.
Qed.

Lemma daily_expense_is_never_returned_witness :
  has_token a_token = true
  /\ daily_expense a_token (Some 19000) (Some 20000) after_A = (server_error, after_A).
Proof.
  split; [reflexivity|].
  apply (daily_expense_is_never_returned a_token (Some 19000) (Some 20000) after_A).
  reflexivity.
Defined.

(** ** The statements built from the filters of a request *)

Ltac by_filters :=
  repeat match goal with
         | v : option string |- _ => destruct v as [[|? ?]|]
         end;
  repeat split; reflexivity.

(** X12.  The statement of the customer ledger has one condition for each
    filter that is given (customer, start date, end date, in this order),
    with the placeholders numbered from 1 in that order, and its parameters
    are the values of these filters in the same order.  The values are not
    part of the text, which is one that the server parses, and without a
    filter the text has no WHERE. *)
Theorem customer_ledger_numbers_its_parameters
    (customer_id start_date end_date : option string) :
  let g := given [("i.customer_id = ", customer_id);
                  ("i.issue_date >= ", start_date);
                  ("i.issue_date <= ", end_date)] in
  let cs := numbered 1 (map fst g) in
  fst (customer_ledger_statement customer_id start_date end_date)
  = (customer_ledger_select
     ++ match cs with
        | [] => ""
        | _ => " WHERE " ++ String.concat " AND " cs
        end
     ++ " ORDER BY i.issue_date DESC")%string
  /\ snd (customer_ledger_statement customer_id start_date end_date) = map snd g
  /\ quotes_closed false (fst (customer_ledger_statement customer_id start_date end_date))
     = true.
Proof. cbv zeta. by_filters. Qed.

(** X13.  The statement of the shipment summary always has a WHERE, whose
    conditions are 1=1 followed by one condition for each filter that is
    given (start date, end date, status, in this order), with the
    placeholders numbered from 1 in that order; its parameters are the
    values of these filters in the same order.  The values are not part of
    the text, which is one that the server parses. *)
Theorem shipment_summary_numbers_its_parameters
    (start_date end_date status : option string) :
  let g := given [("created_at >= ", start_date);
                  ("created_at <= ", end_date);
                  ("status = ", status)] in
  fst (shipment_summary_statement start_date end_date status)
  = ("SELECT " ++ shipment_summary_select
     ++ String.concat " AND " ("1=1" :: numbered 1 (map fst g)) ++ "
    ")%string
  /\ snd (shipment_summary_statement start_date end_date status) = map snd g
  /\ quotes_closed false (fst (shipment_summary_statement start_date end_date status))
     = true.
Proof. cbv zeta. by_filters. Qed.

(** ** The router *)

(** X14.  A GET request for a path of one segment, whatever the segment, is
    handled by the route [/:id] that is registered first, with the segment
    as id; so is GET /transactions, and no request of any method and path
    is handled by the route that lists the transactions.  The routes for
    the balance, for the ledger, for posting and for deleting are reached
    by their paths. *)
Theorem the_transactions_list_is_never_reached :
  (forall x, dispatch GET [x] = Some (get_account, [("id", x)]))
  /\ (forall m path ps, dispatch m path <> Some (list_transactions, ps))
  /\ (forall x, dispatch GET ["balance"; x] = Some (account_balance, [("id", x)]))
  /\ (forall x, dispatch GET ["ledger"; x] = Some (account_ledger, [("accountId", x)]))
  /\ dispatch POST ["transactions"] = Some (create_transaction, [])
  /\ (forall x, dispatch DELETE [x] = Some (remove_account, [("id", x)])).
Proof.
  repeat split; try reflexivity.
  intros m path ps. unfold dispatch, routes.
  destruct m; destruct path as [|x [|y [|z path]]];
    cbn [dispatch_in match_path method_eqb];
    repeat match goal with
           | |- context [String.eqb ?a ?b] => destruct (String.eqb a b)
           end;
    discriminate.
Qed.

(** ** The ids of the journal *)

Lemma NoDup_snoc (x : Z) (l : list Z) :
  NoDup l -> (forall y, In y l -> y < x) -> NoDup (l ++ [x]).
Proof.
  intros N B. apply (Permutation_NoDup (Permutation_cons_append l x)).
  constructor; [|exact N]. intros I. specialize (B x I). lia.
Qed.

Lemma insert_entry_fresh (tid : Z) (e : entry_input) (d : db) :
  fresh_ids d -> fresh_ids (snd (insert_entry tid e d)).
Proof.
  intros ((Bt & Be) & Nt & Ne). rewrite insert_entry_run. cbv zeta.
  destruct (entry_accepted d _); unfold fresh_ids, ids_below_seq; simpl.
  - repeat split; [exact Bt| |exact Nt|].
    + intros te I. apply in_app_or in I. destruct I as [I|[E|[]]].
      * specialize (Be te I). lia.
      * subst te. simpl. lia.
    + rewrite map_app. simpl. apply NoDup_snoc; [exact Ne|].
      intros y I. apply in_map_iff in I. destruct I as (te & E & I).
      subst y. exact (Be te I).
  - repeat split; [exact Bt| |exact Nt|exact Ne].
    intros te I. specialize (Be te I). lia.
Qed.

Lemma for_of_insert_entry_fresh (tid : Z) (es : list entry_input) :
  forall d, fresh_ids d -> fresh_ids (snd (for_of (insert_entry tid) es d)).
Proof.
  induction es as [|e es IH]; intros d F; [exact F|].
  simpl for_of. unfold bind.
  pose proof (insert_entry_fresh tid e d F) as F1.
  destruct (insert_entry tid e d) as [[u|m] d1]; simpl in F1; [|exact F1].
  apply IH, F1.
Qed.

Lemma insert_transaction_fresh (number : string) (reference type description : option string)
    (day : option Z) (d : db) :
  fresh_ids d ->
  fresh_ids (snd (insert_transaction number reference type description day d)).
Proof.
  intros ((Bt & Be) & Nt & Ne). rewrite insert_transaction_run. cbv zeta.
  destruct (transaction_accepted d _); unfold fresh_ids, ids_below_seq; simpl.
  - repeat split; [|exact Be| |exact Ne].
    + intros t I. apply in_app_or in I. destruct I as [I|[E|[]]].
      * specialize (Bt t I). lia.
      * subst t. simpl. lia.
    + rewrite map_app. simpl. apply NoDup_snoc; [exact Nt|].
      intros y I. apply in_map_iff in I. destruct I as (t & E & I).
      subst y. exact (Bt t I).
  - repeat split; [|exact Be|exact Nt|exact Ne].
    intros t I. specialize (Bt t I). lia.
Qed.

(** X15.  If the ids of the transactions and of the entries are distinct
    and below the sequences that hand them out, they still are after a
    posting, however it ends; and a posting that is answered 200 returns as
    transaction_id an id that no transaction had before. *)
Theorem posting_keeps_the_ids_distinct
    (c : clock) (token : option string) (b : post_body) (d : db) :
  fresh_ids d ->
  fresh_ids (snd (post_transactions c token b d))
  /\ (status (fst (post_transactions c token b d)) = 200 ->
      exists id,
        get "transaction_id" (body (fst (post_transactions c token b d))) = Some (JInt id)
        /\ (forall t, In t (transactions d) -> t_id t <> id)
        /\ In id (map t_id (transactions (snd (post_transactions c token b d))))).
Proof.
  intros F. rewrite post_transactions_run.
  destruct (validationResult b); [|split; [exact F|discriminate]].
  destruct (has_token token); [|split; [exact F|discriminate]].
  destruct (_ >? 1); [split; [exact F|discriminate]|].
  split.
  - unfold write_journal, try_catch, bind.
    pose proof (insert_transaction_fresh (transactionNumber c) (b_reference_number b)
                  (b_transaction_type b) (b_description b)
                  (match b_date b with None => Some (today c) | Some x => x end) d F) as F1.
    destruct (insert_transaction _ _ _ _ _ d) as [[id|m] d1]; simpl in F1; [|exact F1].
    pose proof (for_of_insert_entry_fresh id (b_entries b) d1 F1) as F2.
    destruct (for_of _ _ d1) as [[u|m] d2]; exact F2.
  - intros S. exists (transactions_id_seq d).
    destruct (write_journal_outcome c b d) as [[R J]|[[R J]|[R J]]];
      try (rewrite R in S; discriminate S).
    rewrite R. split; [reflexivity|]. split.
    + intros t I. destruct F as ((Bt & _) & _). specialize (Bt t I). lia.
    + unfold journal in J. injection J as J _. rewrite J, map_app.
      apply in_or_app. right. left. reflexivity.
Qed.

Lemma posting_keeps_the_ids_distinct_witness :
  fresh_ids seeded
  /\ fresh_ids after_A
  /\ status (fst (post_transactions a_clock a_token scenario_A seeded)) = 200.
Proof.
  assert (F : fresh_ids seeded).
  { repeat split; try (intros ? []); constructor. }
  split; [exact F|]. split; [|reflexivity].
  apply (posting_keeps_the_ids_distinct a_clock a_token scenario_A seeded F).
Defined.

(** ** More on the ledger and the balance *)

Lemma ledger_le_total (r1 r2 : ledger_row) :
  ledger_le r1 r2 = true \/ ledger_le r2 r1 = true.
Proof.
  unfold ledger_le.
  destruct (date_lt (l_date r1) (l_date r2)) eqn:E1; [left; reflexivity|].
  destruct (date_lt (l_date r2) (l_date r1)) eqn:E2; [right; reflexivity|].
  destruct (Z.leb_spec (l_id r1) (l_id r2)); [left; reflexivity|].
  right. apply Z.leb_le. lia.
Qed.

(** X16.  The rows of a ledger are in ascending order of the transaction
    date, a NULL date last, and then of the entry id.  Every row is an
    entry of the account joined to its transaction, and its running balance
    is the debits minus the credits of the entries of the account with an
    id up to its own, a NULL amount counting as 0. *)
Theorem ledger_rows_are_ordered_entries
    (token : option string) (id : Z) (d : db) :
  has_token token = true ->
  exists rows,
    fst (get_ledger token id d) = res_json (JArr (map json_of_ledger_row rows))
    /\ Sorted (fun r1 r2 => ledger_le r1 r2 = true) rows
    /\ forall r, In r rows ->
         exists te t,
           In te (entries_of id d) /\ In t (transactions d)
           /\ transaction_id te = Some (t_id t)
           /\ l_id r = te_id te /\ l_date r = date t
           /\ l_debit_amount r = debit_amount te /\ l_credit_amount r = credit_amount te
           /\ running_balance r
              = Some (sigma debit (filter (fun e => te_id e <=? te_id te) (entries_of id d))
                      - sigma credit (filter (fun e => te_id e <=? te_id te)
                                             (entries_of id d))).
Proof.
  intros T. unfold get_ledger, try_catch, bind. rewrite T. cbn [negb].
  unfold select_ledger. rewrite query_closed by reflexivity.
  unfold select, ret. cbn [fst]. eexists. split; [reflexivity|]. split.
  - apply order_by_sorted, ledger_le_total.
  - intros r I. apply (Permutation_in _ (order_by_perm _ _)) in I.
    apply in_flat_map in I. destruct I as (te & Ite & I).
    apply in_map_iff in I. destruct I as (t & Er & It).
    apply filter_In in It. destruct It as (It & Et).
    exists te, t. subst r. cbn.
    repeat split; try assumption.
    + unfold opt_eqb in Et. destruct (transaction_id te) as [x|]; [|discriminate].
      apply Z.eqb_eq in Et. congruence.
    + unfold running. rewrite (SUM_total debit), (SUM_total credit).
      destruct (filter _ (entries_of id d)) as [|e es] eqn:Ef; [|reflexivity].
      exfalso. assert (I : In te (filter (fun e => te_id e <=? te_id te) (entries_of id d))).
      { apply filter_In. split; [exact Ite|apply Z.leb_refl]. }
      rewrite Ef in I. destruct I.
Qed.

Lemma ledger_rows_are_ordered_entries_witness :
  has_token a_token = true
  /\ exists rows,
       fst (get_ledger a_token 1 after_A) = res_json (JArr (map json_of_ledger_row rows))
       /\ Sorted (fun r1 r2 => ledger_le r1 r2 = true) rows.
Proof.
  split; [reflexivity|].
  destruct (ledger_rows_are_ordered_entries a_token 1 after_A eq_refl) as (rows & E & S & _).
  exists rows. split; assumption.
Defined.

(** X17.  For every account the balance in its row of the trial balance is
    what the balance route answers for the account: the credits minus the
    debits of its entries. *)
Theorem trial_balance_row_agrees_with_the_balance
    (token : option string) (d : db) (a : account) :
  has_token token = true ->
  In a (accounts d) ->
  In (json_of_tb_row (trial_balance_row d a))
     (match get "accounts" (body (fst (trial_balance token d))) with
      | Some rows => items_of rows
      | None => []
      end)
  /\ get "balance" (body (fst (get_balance token (a_id a) d)))
     = get "balance" (json_of_tb_row (trial_balance_row d a)).
Proof.
  intros T I. split.
  - destruct (trial_balance_run token d T) as (rows & E & R). rewrite R.
    cbn [fst body res_json get assoc String.eqb Ascii.eqb Bool.eqb items_of].
    unfold select_trial_balance in E. rewrite query_closed in E by reflexivity.
    unfold select in E. cbn [fst] in E. injection E as E. subst rows.
    apply in_map. apply (Permutation_in _ (Permutation_sym (order_by_perm _ _))).
    apply in_map, I.
  - rewrite (get_balance_formula token (a_id a) d T). cbn.
    rewrite <- trial_balance_row_debits, <- trial_balance_row_credits. reflexivity.
Qed.

Lemma trial_balance_row_agrees_with_the_balance_witness :
  has_token a_token = true
  /\ In (Account 6 "4000" "Sales Revenue" revenue None) (accounts after_A)
  /\ get "balance" (body (fst (get_balance a_token 6 after_A))) = Some (JDec 50000).
Proof.
  assert (I : In (Account 6 "4000" "Sales Revenue" revenue None) (accounts after_A)).
  { do 5 right. left. reflexivity. }
  split; [reflexivity|]. split; [exact I|].
  destruct (trial_balance_row_agrees_with_the_balance a_token after_A _ eq_refl I)
    as (_ & E).
  cbn [a_id] in E. rewrite E. reflexivity.
Defined.



